(** * Two ROOT headers: the label widget and the Lagrangian morphing function

    A shallow embedding of what [gui/inc/TGLabel.h] and
    [roofit/roofit/inc/RooLagrangianMorphFunc.h] define themselves: the data
    members of [TGLabel], of [RooLagrangianMorphFunc::Config] and of
    [RooLagrangianMorphFunc], and the member functions whose bodies are
    written in the headers.  Member functions that the headers only declare
    have no definition here; where a function defined in a header calls
    one of them, the callee is a variable of the section.

    Conventions.
    - A C++ object is a record of its data members, under their C++ names.
    - A member function [T f(args) const] is a function of the object; a
      [void] member function that assigns members returns the new object.
    - A pointer member is an [option] ([None] is the null pointer); a
      pointer stored in a container stands for the object it points to.
    - Fixed-width integers are values of [Z]; where a body computes with
      them, the reduction to the width of the type is written out.
    - [std::string] is [string], [std::vector<T>] is [list T] and
      [std::map<const std::string, T>] is [gmap string T]. *)

From Stdlib Require Import ZArith Lia.
From stdpp Require Import base strings list gmap.

Local Open Scope Z_scope.

(** ** gui/inc/TGLabel.h *)

Module Label.

(** [TGDimension] (TGDimension.h, included by the header): a width and a
    height, both [UInt_t], built by [TGDimension(UInt_t width, UInt_t height)]. *)
Record TGDimension : Type := mkTGDimension {
  fWidth  : Z;
  fHeight : Z
}.

Section Toolkit.

(** Types that the header takes from TGString.h and GuiTypes.h. *)
Variables TGString GContext_t FontStruct_t : Type.

(** Number of value bits of [UInt_t] ([unsigned int]; Rtypes.h documents
    it as 4 bytes). *)
Variable UInt_bits : Z.

(** The values of type [UInt_t]. *)
Definition UInt_range (n : Z) : Prop := 0 <= n < 2 ^ UInt_bits.

(** The protected data members of [class TGLabel : public TGFrame], in the
    order of the header (lines 39-46).  What the label inherits from
    [TGFrame], and the two static members, are not label-specific state. *)
Record TGLabel : Type := mkTGLabel {
  fText        : option TGString;  (* TGString *fText: label text *)
  fTWidth      : Z;                (* UInt_t: text width *)
  fTHeight     : Z;                (* UInt_t: text height *)
  fTMode       : Z;                (* Int_t: text drawing mode *)
  fTextChanged : bool;             (* Bool_t: has text changed *)
  fNormGC      : GContext_t;       (* graphics context used for drawing *)
  fFontStruct  : FontStruct_t;     (* font to draw label *)
  fHasOwnFont  : bool              (* Bool_t: font defined locally *)
}.

(** [virtual TGDimension GetDefaultSize() const
       { return TGDimension(fTWidth, fTHeight+1); }]
    The sum [fTHeight+1] has type [UInt_t]. *)
Definition GetDefaultSize (l : TGLabel) : TGDimension :=
  mkTGDimension (fTWidth l) ((fTHeight l + 1) mod 2 ^ UInt_bits).

(** [const TGString *GetText() const { return fText; }] *)
Definition GetText (l : TGLabel) : option TGString := fText l.

(** [void SetTextJustify(Int_t tmode) { fTMode = tmode; }] *)
Definition SetTextJustify (tmode : Z) (l : TGLabel) : TGLabel :=
  mkTGLabel (fText l) (fTWidth l) (fTHeight l) tmode (fTextChanged l)
            (fNormGC l) (fFontStruct l) (fHasOwnFont l).

(** A caller that sets the justification mode several times in a row:
    [l.SetTextJustify(m1); l.SetTextJustify(m2); ...]. *)
Definition SetTextJustify_each (tmodes : list Z) (l : TGLabel) : TGLabel :=
  fold_left (fun l' tmode => SetTextJustify tmode l') tmodes l.

(** What a call on a label can reach besides the eight members: the
    [TGFrame] part of the label and the toolkit behind it. *)
Variable Surroundings : Type.

(** The constructors of [TGString] (TGString.h) from a [const char *] and
    from an [Int_t]. *)
Variable TGString_of_chars : option string -> TGString.
Variable TGString_of_Int : Z -> TGString.

(** [virtual void SetText(TGString *newText);] (line 71), which the header
    declares and does not define: the label and its surroundings as the
    call leaves them, or [None] when it does not return. *)
Variable SetText :
  option TGString -> TGLabel * Surroundings -> option (TGLabel * Surroundings).

(** [void SetText(const char *newText) { SetText(new TGString(newText)); }] *)
Definition SetText_chars (newText : option string)
    (st : TGLabel * Surroundings) : option (TGLabel * Surroundings) :=
  SetText (Some (TGString_of_chars newText)) st.

(** [void SetText(Int_t number) { SetText(new TGString(number)); }] *)
Definition SetText_Int (number : Z)
    (st : TGLabel * Surroundings) : option (TGLabel * Surroundings) :=
  SetText (Some (TGString_of_Int number)) st.

(** The five components that the specification lists as the state of the
    label: text, font, text colour, justification mode and redraw-needed
    flag.  The header has no colour member; the colour a label draws its
    text in is an attribute of its graphics context [fNormGC]. *)
Definition label_config (l : TGLabel)
  : option TGString * FontStruct_t * GContext_t * Z * bool :=
  (fText l, fFontStruct l, fNormGC l, fTMode l, fTextChanged l).

(** The eight declared members. *)
Definition label_state (l : TGLabel)
  : option TGString * Z * Z * Z * bool * GContext_t * FontStruct_t * bool :=
  (fText l, fTWidth l, fTHeight l, fTMode l, fTextChanged l,
   fNormGC l, fFontStruct l, fHasOwnFont l).

End Toolkit.

Arguments mkTGLabel {TGString GContext_t FontStruct_t}.
Arguments fText {TGString GContext_t FontStruct_t}.
Arguments fTWidth {TGString GContext_t FontStruct_t}.
Arguments fTHeight {TGString GContext_t FontStruct_t}.
Arguments fTMode {TGString GContext_t FontStruct_t}.
Arguments fTextChanged {TGString GContext_t FontStruct_t}.
Arguments fNormGC {TGString GContext_t FontStruct_t}.
Arguments fFontStruct {TGString GContext_t FontStruct_t}.
Arguments fHasOwnFont {TGString GContext_t FontStruct_t}.
Arguments GetDefaultSize {TGString GContext_t FontStruct_t}.
Arguments GetText {TGString GContext_t FontStruct_t}.
Arguments SetTextJustify {TGString GContext_t FontStruct_t}.
Arguments SetTextJustify_each {TGString GContext_t FontStruct_t}.
Arguments SetText_chars {TGString GContext_t FontStruct_t Surroundings}.
Arguments SetText_Int {TGString GContext_t FontStruct_t Surroundings}.
Arguments label_config {TGString GContext_t FontStruct_t}.
Arguments label_state {TGString GContext_t FontStruct_t}.

End Label.

(** ** roofit/roofit/inc/RooLagrangianMorphFunc.h: class Config *)

Module Config.

Section Framework.

(** [RooArgList] (RooArgList.h) and a default-constructed one. *)
Variable RooArgList : Type.
Variable RooArgList_ctor : RooArgList.

(** The floating-point type [double]. *)
Variable double : Type.

(** The implicit conversion from [size_t] to [int] at the [return] of
    [nSamples].  It keeps every value that [int] can represent; what it
    yields on the others is left to the implementation. *)
Variable int_of_size_t : Z -> Z.

(** The typedefs of lines 82-85. *)
Abbreviation ParamSet := (gmap string double).
Abbreviation FlagSet := (gmap string Z).
Abbreviation ParamMap := (gmap string ParamSet).
Abbreviation FlagMap := (gmap string FlagSet).

(** The private data members of [class Config] (lines 143-157). *)
Record Config : Type := mkConfig {
  _obsName             : string;
  _fileName            : string;
  _folderlist          : RooArgList;
  _folderNames         : list string;
  _paramCards          : ParamMap;
  _flagValues          : FlagMap;
  _vertices            : list RooArgList;
  _couplings           : RooArgList;
  _prodCouplings       : RooArgList;
  _decCouplings        : RooArgList;
  _observables         : RooArgList;
  _binWidths           : RooArgList;
  _configDiagrams      : list (list RooArgList);
  _nonInterfering      : list RooArgList;
  _allowNegativeYields : bool     (* Bool_t _allowNegativeYields = true *)
}.

(** [Config() {}]: every member is default-initialised, and
    [_allowNegativeYields] takes its default member initialiser. *)
Definition Config_ctor : Config :=
  mkConfig "" "" RooArgList_ctor [] ∅ ∅ [] RooArgList_ctor RooArgList_ctor
           RooArgList_ctor RooArgList_ctor RooArgList_ctor [] [] true.

(** The getters of lines 107-114 and 131-134. *)
Definition getFileName (c : Config) : string := _fileName c.
Definition getObservableName (c : Config) : string := _obsName c.
Definition getDiagrams (c : Config) : list (list RooArgList) := _configDiagrams c.
Definition getCouplings (c : Config) : RooArgList := _couplings c.
Definition getProdCouplings (c : Config) : RooArgList := _prodCouplings c.
Definition getDecCouplings (c : Config) : RooArgList := _decCouplings c.
Definition getFolders (c : Config) : RooArgList := _folderlist c.
Definition IsAllowNegativeYields (c : Config) : bool := _allowNegativeYields c.
Definition getParamCards (c : Config) : ParamMap := _paramCards c.
Definition getFlagValues (c : Config) : FlagMap := _flagValues c.
Definition getFolderNames (c : Config) : list string := _folderNames c.

(** [int nSamples() const { return this->_folderNames.size(); }] *)
Definition nSamples (c : Config) : Z :=
  int_of_size_t (Z.of_nat (length (_folderNames c))).

End Framework.

Arguments mkConfig {RooArgList double}.
Arguments _obsName {RooArgList double}.
Arguments _fileName {RooArgList double}.
Arguments _folderlist {RooArgList double}.
Arguments _folderNames {RooArgList double}.
Arguments _paramCards {RooArgList double}.
Arguments _flagValues {RooArgList double}.
Arguments _vertices {RooArgList double}.
Arguments _couplings {RooArgList double}.
Arguments _prodCouplings {RooArgList double}.
Arguments _decCouplings {RooArgList double}.
Arguments _observables {RooArgList double}.
Arguments _binWidths {RooArgList double}.
Arguments _configDiagrams {RooArgList double}.
Arguments _nonInterfering {RooArgList double}.
Arguments _allowNegativeYields {RooArgList double}.
Arguments Config_ctor {RooArgList} RooArgList_ctor {double}.
Arguments getFileName {RooArgList double}.
Arguments getObservableName {RooArgList double}.
Arguments getDiagrams {RooArgList double}.
Arguments getCouplings {RooArgList double}.
Arguments getProdCouplings {RooArgList double}.
Arguments getDecCouplings {RooArgList double}.
Arguments getFolders {RooArgList double}.
Arguments IsAllowNegativeYields {RooArgList double}.
Arguments getParamCards {RooArgList double}.
Arguments getFlagValues {RooArgList double}.
Arguments getFolderNames {RooArgList double}.
Arguments nSamples {RooArgList double}.

End Config.

(** ** roofit/roofit/inc/RooLagrangianMorphFunc.h: the morphing function *)

Module MorphFunc.

Section Framework.

(** Types of the host framework that the members below have. *)
Variables RooArgList RooArgSet RooListProxy RooSetProxy : Type.
Variable RooObjCacheManager : Type.
Variable double : Type.

(** The conversion from [size_t] to [int], as in [Config]. *)
Variable int_of_size_t : Z -> Z.

(** The data members of [class RooLagrangianMorphFunc : public RooAbsReal]
    (lines 251, 259 and 345-355).  [class CacheElem], whose objects the
    cache manager holds, is only declared (line 247). *)
Record RooLagrangianMorphFunc : Type := mkRooLagrangianMorphFunc {
  _ownParameters  : bool;                        (* = false *)
  _cacheMgr       : RooObjCacheManager;          (* mutable: the cache manager *)
  _scale          : double;                      (* = 1 *)
  _sampleMap      : gmap string Z;               (* std::map<std::string, int> *)
  _physics        : RooListProxy;
  _operators      : RooSetProxy;
  _observables    : RooListProxy;
  _binWidths      : RooListProxy;
  _flags          : RooListProxy;
  _config         : Config.Config RooArgList double;
  _diagrams       : list (list RooListProxy);
  _curNormSet     : option RooArgSet;            (* mutable const RooArgSet* *)
  _nonInterfering : list RooListProxy
}.

(** [int nSamples() const {return this->_config.getFolderNames().size(); }] *)
Definition nSamples (f : RooLagrangianMorphFunc) : Z :=
  int_of_size_t (Z.of_nat (length (Config.getFolderNames (_config f)))).

(** [Bool_t selfNormalized() const { return true; }] *)
Definition selfNormalized (f : RooLagrangianMorphFunc) : bool := true.

(** [TDirectory] of the host framework, and [Config::readParameters]
    (line 140), which the header declares and does not define: the
    configuration it leaves behind, as it depends on the directory and on
    the configuration it is called on, or [None] when the call does not
    return (an exception leaves it). *)
Variable TDirectory : Type.
Variable Config_readParameters :
  option TDirectory -> Config.Config RooArgList double ->
  option (Config.Config RooArgList double).

(** [void readParameters(TDirectory *f) { _config.readParameters(f); }] *)
Definition readParameters (d : option TDirectory) (f : RooLagrangianMorphFunc)
  : option RooLagrangianMorphFunc :=
  match Config_readParameters d (_config f) with
  | Some c =>
      Some (mkRooLagrangianMorphFunc
              (_ownParameters f) (_cacheMgr f) (_scale f) (_sampleMap f)
              (_physics f) (_operators f) (_observables f) (_binWidths f)
              (_flags f) c (_diagrams f) (_curNormSet f) (_nonInterfering f))
  | None => None
  end.

End Framework.

Arguments mkRooLagrangianMorphFunc
  {RooArgList RooArgSet RooListProxy RooSetProxy RooObjCacheManager double}.
Arguments _ownParameters
  {RooArgList RooArgSet RooListProxy RooSetProxy RooObjCacheManager double}.
Arguments _cacheMgr
  {RooArgList RooArgSet RooListProxy RooSetProxy RooObjCacheManager double}.
Arguments _scale
  {RooArgList RooArgSet RooListProxy RooSetProxy RooObjCacheManager double}.
Arguments _sampleMap
  {RooArgList RooArgSet RooListProxy RooSetProxy RooObjCacheManager double}.
Arguments _config
  {RooArgList RooArgSet RooListProxy RooSetProxy RooObjCacheManager double}.
Arguments _physics
  {RooArgList RooArgSet RooListProxy RooSetProxy RooObjCacheManager double}.
Arguments _operators
  {RooArgList RooArgSet RooListProxy RooSetProxy RooObjCacheManager double}.
Arguments _observables
  {RooArgList RooArgSet RooListProxy RooSetProxy RooObjCacheManager double}.
Arguments _binWidths
  {RooArgList RooArgSet RooListProxy RooSetProxy RooObjCacheManager double}.
Arguments _flags
  {RooArgList RooArgSet RooListProxy RooSetProxy RooObjCacheManager double}.
Arguments _diagrams
  {RooArgList RooArgSet RooListProxy RooSetProxy RooObjCacheManager double}.
Arguments _curNormSet
  {RooArgList RooArgSet RooListProxy RooSetProxy RooObjCacheManager double}.
Arguments _nonInterfering
  {RooArgList RooArgSet RooListProxy RooSetProxy RooObjCacheManager double}.
Arguments readParameters
  {RooArgList RooArgSet RooListProxy RooSetProxy RooObjCacheManager double
   TDirectory}.
Arguments nSamples
  {RooArgList RooArgSet RooListProxy RooSetProxy RooObjCacheManager double}.
Arguments selfNormalized
  {RooArgList RooArgSet RooListProxy RooSetProxy RooObjCacheManager double}.

End MorphFunc.

(** ** Concrete objects

    The inputs at which the properties below are instantiated.  The
    toolkit's strings are [string] and its handles numbers; [UInt_t] and
    [int] have 32 bits. *)

(** Narrowing to a 32-bit two's-complement [int]. *)
Definition int32_of_size_t (n : Z) : Z := (n + 2 ^ 31) mod 2 ^ 32 - 2 ^ 31.

Definition hello_label : Label.TGLabel string Z Z :=
  Label.mkTGLabel (Some "hello"%string) 30 13 0 false 7 5 false.

(** [hello_label] with another text width. *)
Definition wide_label : Label.TGLabel string Z Z :=
  Label.mkTGLabel (Some "hello"%string) 31 13 0 false 7 5 false.

(** [hello_label] with the largest text height that 32 bits hold. *)
Definition tall_label : Label.TGLabel string Z Z :=
  Label.mkTGLabel (Some "hello"%string) 30 4294967295 0 false 7 5 false.

(** A configuration with two sample folders. *)
Definition two_samples : Config.Config unit Z :=
  Config.mkConfig "pTV"%string "input.root"%string tt
    ["SM_NPsq0"%string; "cHq3_NPsq1"%string] ∅ ∅ [] tt tt tt tt tt [] [] true.

(** A configuration with [2^31] sample folders, all named by the empty
    string. *)
Definition many_samples : Config.Config unit Z :=
  Config.mkConfig "pTV"%string "input.root"%string tt
    (replicate (Z.to_nat 2147483648) ""%string) ∅ ∅ [] tt tt tt tt tt [] [] true.

(** A morphing function over a configuration. *)
Definition morph_over (c : Config.Config unit Z)
  : MorphFunc.RooLagrangianMorphFunc unit unit unit unit unit Z :=
  MorphFunc.mkRooLagrangianMorphFunc false tt 1 ∅ tt tt tt tt tt c [] None [].

(** A morphing function over [two_samples]. *)
Definition two_sample_morph
  : MorphFunc.RooLagrangianMorphFunc unit unit unit unit unit Z :=
  MorphFunc.mkRooLagrangianMorphFunc false tt 1 ∅ tt tt tt tt tt
    two_samples [] None [].

(** ** The label widget *)

Section LabelFacts.

Variables TGString GContext_t FontStruct_t : Type.
Variable UInt_bits : Z.
Hypothesis UInt_bits_pos : 0 < UInt_bits.

Implicit Types l : Label.TGLabel TGString GContext_t FontStruct_t.

(** Adding one to a [UInt_t] below the largest value is exact. *)
Lemma UInt_succ_exact (h : Z) :
  0 <= h < 2 ^ UInt_bits - 1 -> (h + 1) mod 2 ^ UInt_bits = h + 1.
Proof.
  intros Hh. apply Z.mod_small. lia.
Qed.

(** Adding one to the largest [UInt_t] gives zero. *)
Lemma UInt_succ_wraps : (2 ^ UInt_bits - 1 + 1) mod 2 ^ UInt_bits = 0.
Proof.
  replace (2 ^ UInt_bits - 1 + 1) with (2 ^ UInt_bits) by lia.
  apply Z.mod_same. pose proof (Z.pow_pos_nonneg 2 UInt_bits). lia.
Qed.

(** The result of [GetDefaultSize] consists of [UInt_t] values again. *)
Lemma GetDefaultSize_range l :
  Label.UInt_range UInt_bits (Label.fTWidth l) ->
  Label.UInt_range UInt_bits (Label.fWidth (Label.GetDefaultSize UInt_bits l)) /\
  Label.UInt_range UInt_bits (Label.fHeight (Label.GetDefaultSize UInt_bits l)).
Proof.
  intros Hw. split; [exact Hw|].
  unfold Label.UInt_range, Label.GetDefaultSize; cbn.
  apply Z.mod_pos_bound. pose proof (Z.pow_pos_nonneg 2 UInt_bits). lia.
Qed.

(** C7, as amended.  For every label whose text height is a [UInt_t]
    value, [GetDefaultSize] returns the stored text width as width, and as
    height the stored text height plus one computed in [UInt_t]: the
    height plus one when that is still a [UInt_t] value, and zero when the
    stored height is the largest [UInt_t]. *)
Theorem GetDefaultSize_height_succ_UInt l :
  Label.UInt_range UInt_bits (Label.fTHeight l) ->
  Label.fWidth (Label.GetDefaultSize UInt_bits l) = Label.fTWidth l /\
  (Label.fTHeight l < 2 ^ UInt_bits - 1 ->
   Label.fHeight (Label.GetDefaultSize UInt_bits l) = Label.fTHeight l + 1) /\
  (Label.fTHeight l = 2 ^ UInt_bits - 1 ->
   Label.fHeight (Label.GetDefaultSize UInt_bits l) = 0).
Proof.
  intros [Hlo Hhi]. unfold Label.GetDefaultSize; cbn.
  split; [reflexivity|]. split.
  - intros Hlt. apply UInt_succ_exact. lia.
  - intros ->. apply UInt_succ_wraps.
Qed.

(** Whatever the width of [UInt_t], some label has a default height that
    is not its text height plus one. *)
Lemma GetDefaultSize_height_overflows (text : option TGString)
    (gc : GContext_t) (font : FontStruct_t) :
  exists l,
    Label.UInt_range UInt_bits (Label.fTWidth l) /\
    Label.UInt_range UInt_bits (Label.fTHeight l) /\
    Label.fHeight (Label.GetDefaultSize UInt_bits l) <> Label.fTHeight l + 1.
Proof.
  pose proof (Z.pow_pos_nonneg 2 UInt_bits) as Hpow.
  exists (Label.mkTGLabel text 0 (2 ^ UInt_bits - 1) 0 false gc font false).
  unfold Label.UInt_range, Label.GetDefaultSize; cbn.
  rewrite UInt_succ_wraps. lia.
Qed.

(** C2, as amended.  The label-specific state of a label is exactly its
    eight declared members: the five components text, font, graphics
    context (which carries the text colour), justification mode and
    text-changed flag, together with the stored text width, the stored
    text height and the own-font flag.  Two labels are equal exactly when
    they agree on all of these, and every combination of values of the
    eight is the state of a label. *)
Theorem label_state_eight_members :
  (forall l1 l2,
     l1 = l2 <->
     Label.label_config l1 = Label.label_config l2 /\
     Label.fTWidth l1 = Label.fTWidth l2 /\
     Label.fTHeight l1 = Label.fTHeight l2 /\
     Label.fHasOwnFont l1 = Label.fHasOwnFont l2) /\
  (forall text font gc tmode changed width height own,
     exists l,
       Label.label_config l = (text, font, gc, tmode, changed) /\
       Label.fTWidth l = width /\
       Label.fTHeight l = height /\
       Label.fHasOwnFont l = own).
Proof.
  split.
  - intros [t1 w1 h1 m1 c1 g1 f1 o1] [t2 w2 h2 m2 c2 g2 f2 o2].
    unfold Label.label_config; cbn. split.
    + intros Heq. injection Heq as -> -> -> -> -> -> -> ->. auto.
    + intros (Hcfg & -> & -> & ->). injection Hcfg as -> -> -> -> ->.
      reflexivity.
  - intros text font gc tmode changed width height own.
    exists (Label.mkTGLabel text width height tmode changed gc font own).
    unfold Label.label_config; cbn. auto.
Qed.

(** [label_state] loses nothing: a label is rebuilt from it. *)
Lemma label_state_inj l1 l2 :
  Label.label_state l1 = Label.label_state l2 -> l1 = l2.
Proof.
  destruct l1, l2. unfold Label.label_state; cbn.
  intros Heq. injection Heq as -> -> -> -> -> -> -> ->. reflexivity.
Qed.

(** [SetTextJustify tmode] stores [tmode] in [fTMode] and leaves the
    text, the text width and height, the changed flag, the graphics
    context, the font and the own-font flag as they were: the setter
    stores its argument and computes nothing. *)
Theorem SetTextJustify_frame (tmode : Z) l :
  Label.fTMode (Label.SetTextJustify tmode l) = tmode /\
  Label.fText (Label.SetTextJustify tmode l) = Label.fText l /\
  Label.fTWidth (Label.SetTextJustify tmode l) = Label.fTWidth l /\
  Label.fTHeight (Label.SetTextJustify tmode l) = Label.fTHeight l /\
  Label.fTextChanged (Label.SetTextJustify tmode l) = Label.fTextChanged l /\
  Label.fNormGC (Label.SetTextJustify tmode l) = Label.fNormGC l /\
  Label.fFontStruct (Label.SetTextJustify tmode l) = Label.fFontStruct l /\
  Label.fHasOwnFont (Label.SetTextJustify tmode l) = Label.fHasOwnFont l.
Proof.
  destruct l as [t w h m c g f o].
  unfold Label.SetTextJustify; cbn.
  repeat split.
Qed.

(** Consequences of the frame property: storing the mode a label already
    has changes nothing, a second call overwrites the first, and neither
    the text nor the default size depends on the mode. *)
Lemma SetTextJustify_same l :
  Label.SetTextJustify (Label.fTMode l) l = l.
Proof.
  destruct l. reflexivity.
Qed.

Lemma SetTextJustify_twice (m1 m2 : Z) l :
  Label.SetTextJustify m2 (Label.SetTextJustify m1 l) = Label.SetTextJustify m2 l.
Proof.
  apply label_state_inj. reflexivity.
Qed.

Lemma SetTextJustify_GetDefaultSize (tmode : Z) l :
  Label.GetDefaultSize UInt_bits (Label.SetTextJustify tmode l)
  = Label.GetDefaultSize UInt_bits l.
Proof.
  destruct l. reflexivity.
Qed.

Lemma SetTextJustify_GetText (tmode : Z) l :
  Label.GetText (Label.SetTextJustify tmode l) = Label.GetText l.
Proof.
  destruct l. reflexivity.
Qed.

End LabelFacts.

(** The claim C7 as stated (the default height is the text height plus
    one) fails on [tall_label]: its text height is [2^32 - 1], and the
    height of its default size is [0]. *)
Lemma GetDefaultSize_height_not_succ :
  ~ (forall l : Label.TGLabel string Z Z,
       Label.UInt_range 32 (Label.fTWidth l) ->
       Label.UInt_range 32 (Label.fTHeight l) ->
       Label.fWidth (Label.GetDefaultSize 32 l) = Label.fTWidth l /\
       Label.fHeight (Label.GetDefaultSize 32 l) = Label.fTHeight l + 1).
Proof.
  intros Hclaim.
  destruct (Hclaim tall_label) as [_ Hheight].
  - unfold Label.UInt_range; cbn. lia.
  - unfold Label.UInt_range; cbn. lia.
  - vm_compute in Hheight. discriminate Hheight.
Qed.

(** What [GetDefaultSize] returns on the two labels. *)
Lemma GetDefaultSize_tall_label :
  Label.GetDefaultSize 32 tall_label = Label.mkTGDimension 30 0.
Proof.
  reflexivity.
Qed.

Lemma GetDefaultSize_hello_label :
  Label.GetDefaultSize 32 hello_label = Label.mkTGDimension 30 14.
Proof.
  reflexivity.
Qed.

(** [GetDefaultSize_height_succ_UInt] at [hello_label], with 32 bits. *)
Lemma GetDefaultSize_height_succ_UInt_witness :
  Label.fWidth (Label.GetDefaultSize 32 hello_label) = 30 /\
  (13 < 2 ^ 32 - 1 -> Label.fHeight (Label.GetDefaultSize 32 hello_label) = 14) /\
  (13 = 2 ^ 32 - 1 -> Label.fHeight (Label.GetDefaultSize 32 hello_label) = 0).
Proof.
  apply (GetDefaultSize_height_succ_UInt string Z Z 32); [lia|].
  unfold Label.UInt_range; cbn. lia.
Defined.

(** The claim C2 as stated (the five listed components are the whole
    label-specific state) fails: [hello_label] and [wide_label] agree on
    text, font, graphics context, justification mode and changed flag, and
    are different labels. *)
Lemma label_config_not_whole_state :
  ~ (forall l1 l2 : Label.TGLabel string Z Z,
       Label.label_config l1 = Label.label_config l2 -> l1 = l2).
Proof.
  intros Hclaim.
  assert (Heq : hello_label = wide_label) by (apply Hclaim; reflexivity).
  discriminate Heq.
Qed.

(** The two labels are told apart by [GetDefaultSize]. *)
Lemma label_config_misses_default_size :
  Label.label_config hello_label = Label.label_config wide_label /\
  Label.GetDefaultSize 32 hello_label <> Label.GetDefaultSize 32 wide_label.
Proof.
  split; [reflexivity|]. intros Heq. discriminate Heq.
Qed.

(** ** The morphing function and its configuration *)

Section MorphFacts.

Variables RooArgList RooArgSet RooListProxy RooSetProxy : Type.
Variable RooObjCacheManager : Type.
Variable double : Type.
Variable int_of_size_t : Z -> Z.

(** The largest [int], and what the language guarantees of the conversion:
    a value that [int] can represent is kept. *)
Variable INT_MAX : Z.
Hypothesis int_of_size_t_keeps :
  forall n : Z, 0 <= n <= INT_MAX -> int_of_size_t n = n.

Implicit Types c : Config.Config RooArgList double.
Implicit Types f : MorphFunc.RooLagrangianMorphFunc
  RooArgList RooArgSet RooListProxy RooSetProxy RooObjCacheManager double.

(** [Config::nSamples] is the number of folder names when [int] holds it. *)
Lemma Config_nSamples_count c :
  Z.of_nat (length (Config.getFolderNames c)) <= INT_MAX ->
  Config.nSamples int_of_size_t c = Z.of_nat (length (Config.getFolderNames c)).
Proof.
  intros Hle. unfold Config.nSamples, Config.getFolderNames in *.
  apply int_of_size_t_keeps. lia.
Qed.

(** [nSamples] of a morphing function returns the same
    value as [nSamples] of its configuration, both being the number of
    folder names of the configuration converted from [size_t] to [int];
    that is the number of folder names itself whenever [int] can hold it. *)
Theorem nSamples_agrees_with_Config f :
  MorphFunc.nSamples int_of_size_t f
  = Config.nSamples int_of_size_t (MorphFunc._config f) /\
  MorphFunc.nSamples int_of_size_t f
  = int_of_size_t (Z.of_nat (length (Config.getFolderNames (MorphFunc._config f)))) /\
  (Z.of_nat (length (Config.getFolderNames (MorphFunc._config f))) <= INT_MAX ->
   MorphFunc.nSamples int_of_size_t f
   = Z.of_nat (length (Config.getFolderNames (MorphFunc._config f)))).
Proof.
  unfold MorphFunc.nSamples.
  split; [reflexivity|]. split; [reflexivity|].
  intros Hle. apply (Config_nSamples_count _ Hle).
Qed.

(** A default-constructed configuration allows negative yields. *)
Lemma Config_ctor_allows_negative_yields (d : RooArgList) :
  Config.IsAllowNegativeYields (Config.Config_ctor d (double := double)) = true.
Proof.
  reflexivity.
Qed.

(** A default-constructed configuration has no sample. *)
Lemma Config_ctor_nSamples (d : RooArgList) :
  0 <= INT_MAX ->
  Config.nSamples int_of_size_t (Config.Config_ctor d (double := double)) = 0.
Proof.
  intros Hmax. unfold Config.nSamples; cbn.
  apply int_of_size_t_keeps. lia.
Qed.

End MorphFacts.

(** Narrowing to 32 bits keeps what a 32-bit [int] represents. *)
Lemma int32_of_size_t_keeps (n : Z) :
  0 <= n <= 2147483647 -> int32_of_size_t n = n.
Proof.
  intros Hn. unfold int32_of_size_t.
  rewrite Z.mod_small; lia.
Qed.

(** The result of narrowing to 32 bits is a 32-bit [int]. *)
Lemma int32_of_size_t_range (n : Z) :
  - 2147483648 <= int32_of_size_t n <= 2147483647.
Proof.
  unfold int32_of_size_t.
  pose proof (Z.mod_pos_bound (n + 2 ^ 31) (2 ^ 32)). lia.
Qed.

(** [many_samples] has [2^31] folder names. *)
Lemma many_samples_count :
  Z.of_nat (length (Config.getFolderNames many_samples)) = 2147483648.
Proof.
  unfold Config.getFolderNames, many_samples.
  cbn [Config._folderNames].
  rewrite length_replicate. apply Z2Nat.id. lia.
Qed.

(** [nSamples_agrees_with_Config] at [two_sample_morph], with 32-bit [int]. *)
Lemma nSamples_agrees_with_Config_witness :
  MorphFunc.nSamples int32_of_size_t two_sample_morph
  = Config.nSamples int32_of_size_t two_samples /\
  MorphFunc.nSamples int32_of_size_t two_sample_morph = int32_of_size_t 2 /\
  (2 <= 2147483647 -> MorphFunc.nSamples int32_of_size_t two_sample_morph = 2).
Proof.
  apply (nSamples_agrees_with_Config unit unit unit unit unit Z
           int32_of_size_t 2147483647 int32_of_size_t_keeps two_sample_morph).
Defined.

(** What the two member functions read of [morph_over c]. *)
Lemma morph_over_config (c : Config.Config unit Z) :
  MorphFunc._config (morph_over c) = c.
Proof.
  reflexivity.
Qed.

Lemma Config_nSamples_unfold (conv : Z -> Z) (c : Config.Config unit Z) :
  Config.nSamples conv c = conv (Z.of_nat (length (Config.getFolderNames c))).
Proof.
  reflexivity.
Qed.

Lemma nSamples_morph_over (conv : Z -> Z) (c : Config.Config unit Z) :
  MorphFunc.nSamples conv (morph_over c)
  = conv (Z.of_nat (length (Config.getFolderNames c))).
Proof.
  reflexivity.
Qed.

(** The common value is not always the number of folder names: the
    morphing function over [many_samples] has [2^31] of them, and no
    32-bit [int] is [2^31]. *)
Lemma nSamples_not_count :
  ~ (forall f : MorphFunc.RooLagrangianMorphFunc unit unit unit unit unit Z,
       MorphFunc.nSamples int32_of_size_t f
       = Config.nSamples int32_of_size_t (MorphFunc._config f) /\
       MorphFunc.nSamples int32_of_size_t f
       = Z.of_nat (length (Config.getFolderNames (MorphFunc._config f)))).
Proof.
  intros Hclaim.
  destruct (Hclaim (morph_over many_samples)) as [_ Hcount].
  rewrite nSamples_morph_over, morph_over_config in Hcount.
  rewrite many_samples_count in Hcount.
  pose proof (int32_of_size_t_range 2147483648) as Hr.
  rewrite Hcount in Hr.
  lia.
Qed.

(** The same holds however the conversion treats the values that [int]
    cannot represent, as long as its results are 32-bit [int]s. *)
Lemma nSamples_not_count_any_int32 (conv : Z -> Z) :
  (forall n : Z, - 2147483648 <= conv n <= 2147483647) ->
  MorphFunc.nSamples conv (morph_over many_samples)
  <> Z.of_nat (length (Config.getFolderNames
                         (MorphFunc._config (morph_over many_samples)))).
Proof.
  intros Hrange Hcount.
  rewrite nSamples_morph_over, morph_over_config in Hcount.
  rewrite many_samples_count in Hcount.
  pose proof (Hrange 2147483648) as Hr.
  rewrite Hcount in Hr.
  lia.
Qed.

(** C8, on the code.  The claim says that both [nSamples] return the
    number of folder names, and so does the comment above
    [Config::nSamples] ("Return the number of samples in this morphing
    function").  On [many_samples], which has [2^31] folder names, both
    member functions return [- 2^31]. *)
Lemma nSamples_many_samples :
  MorphFunc.nSamples int32_of_size_t (morph_over many_samples) = - 2147483648 /\
  Config.nSamples int32_of_size_t many_samples = - 2147483648.
Proof.
  rewrite nSamples_morph_over, Config_nSamples_unfold.
  rewrite many_samples_count. split; reflexivity.
Qed.

(** ** Further properties of the label widget *)

Section LabelCalls.

Variables TGString GContext_t FontStruct_t : Type.
Variable UInt_bits : Z.
Hypothesis UInt_bits_pos : 0 < UInt_bits.

Implicit Types l : Label.TGLabel TGString GContext_t FontStruct_t.

(** Taking one off a [UInt_t] successor, again in [UInt_t], gives the
    number back, also across the wrap. *)
Lemma UInt_pred_succ (h : Z) :
  0 <= h < 2 ^ UInt_bits ->
  ((h + 1) mod 2 ^ UInt_bits - 1) mod 2 ^ UInt_bits = h.
Proof.
  intros Hh. rewrite Zminus_mod_idemp_l.
  replace (h + 1 - 1) with h by lia.
  apply Z.mod_small. exact Hh.
Qed.

(** The stored text height is read back from the default size. *)
Lemma GetDefaultSize_text_height l :
  Label.UInt_range UInt_bits (Label.fTHeight l) ->
  (Label.fHeight (Label.GetDefaultSize UInt_bits l) - 1) mod 2 ^ UInt_bits
  = Label.fTHeight l.
Proof.
  intros Hh. unfold Label.GetDefaultSize; cbn.
  apply UInt_pred_succ. exact Hh.
Qed.

(** The default height of a label is zero exactly when its stored text
    height is the largest [UInt_t]; for every other text height it is at
    least one, and it is always a [UInt_t] value. *)
Theorem GetDefaultSize_height_zero_iff l :
  Label.UInt_range UInt_bits (Label.fTHeight l) ->
  (Label.fHeight (Label.GetDefaultSize UInt_bits l) = 0
   <-> Label.fTHeight l = 2 ^ UInt_bits - 1) /\
  (Label.fTHeight l <> 2 ^ UInt_bits - 1 ->
   1 <= Label.fHeight (Label.GetDefaultSize UInt_bits l) < 2 ^ UInt_bits).
Proof.
  intros [Hlo Hhi]. unfold Label.GetDefaultSize; cbn.
  destruct (Z.eq_dec (Label.fTHeight l) (2 ^ UInt_bits - 1)) as [Heq | Hne].
  - rewrite Heq, UInt_succ_wraps by exact UInt_bits_pos.
    split; [tauto | intros Hcontra; contradiction].
  - rewrite UInt_succ_exact by lia. split; [split; lia | lia].
Qed.

(** Labels with different stored text sizes have different default sizes:
    [GetDefaultSize] agrees on two labels exactly when their stored text
    widths and text heights agree. *)
Theorem GetDefaultSize_eq_iff l1 l2 :
  Label.UInt_range UInt_bits (Label.fTHeight l1) ->
  Label.UInt_range UInt_bits (Label.fTHeight l2) ->
  Label.GetDefaultSize UInt_bits l1 = Label.GetDefaultSize UInt_bits l2
  <-> Label.fTWidth l1 = Label.fTWidth l2 /\
      Label.fTHeight l1 = Label.fTHeight l2.
Proof.
  intros H1 H2. split.
  - intros Heq. split.
    + change (Label.fWidth (Label.GetDefaultSize UInt_bits l1)
              = Label.fWidth (Label.GetDefaultSize UInt_bits l2)).
      rewrite Heq. reflexivity.
    + rewrite <- (GetDefaultSize_text_height l1 H1).
      rewrite <- (GetDefaultSize_text_height l2 H2).
      rewrite Heq. reflexivity.
  - intros [Hw Hh]. unfold Label.GetDefaultSize. rewrite Hw, Hh. reflexivity.
Qed.

(** Of several [SetTextJustify] calls in a row only the last one counts:
    the label ends as after that call alone, and without any call it is
    unchanged. *)
Theorem SetTextJustify_each_last (tmodes : list Z) l :
  Label.SetTextJustify_each tmodes l
  = match last tmodes with
    | Some tmode => Label.SetTextJustify tmode l
    | None => l
    end.
Proof.
  revert l. induction tmodes as [| m ms IH]; intros l.
  - reflexivity.
  - change (Label.SetTextJustify_each (m :: ms) l)
      with (Label.SetTextJustify_each ms (Label.SetTextJustify m l)).
    rewrite IH. destruct ms as [| m' ms'].
    + reflexivity.
    + rewrite last_cons_cons.
      destruct (last (m' :: ms')) as [m'' |] eqn:Hlast.
      * apply SetTextJustify_twice.
      * apply last_None in Hlast. discriminate Hlast.
Qed.

(** No sequence of [SetTextJustify] calls changes what a label shows or
    how large it wants to be: the text, the default size, the changed
    flag, the graphics context, the font and the own-font flag stay as
    they were. *)
Theorem SetTextJustify_each_keeps (tmodes : list Z) l :
  Label.GetText (Label.SetTextJustify_each tmodes l) = Label.GetText l /\
  Label.GetDefaultSize UInt_bits (Label.SetTextJustify_each tmodes l)
  = Label.GetDefaultSize UInt_bits l /\
  Label.fTextChanged (Label.SetTextJustify_each tmodes l) = Label.fTextChanged l /\
  Label.fNormGC (Label.SetTextJustify_each tmodes l) = Label.fNormGC l /\
  Label.fFontStruct (Label.SetTextJustify_each tmodes l) = Label.fFontStruct l /\
  Label.fHasOwnFont (Label.SetTextJustify_each tmodes l) = Label.fHasOwnFont l.
Proof.
  revert l. induction tmodes as [| m ms IH]; intros l.
  - repeat split.
  - change (Label.SetTextJustify_each (m :: ms) l)
      with (Label.SetTextJustify_each ms (Label.SetTextJustify m l)).
    destruct (IH (Label.SetTextJustify m l)) as (-> & -> & -> & -> & -> & ->).
    destruct l. repeat split.
Qed.

End LabelCalls.

(** [GetDefaultSize_height_zero_iff] at [hello_label], with 32 bits. *)
Lemma GetDefaultSize_height_zero_iff_witness :
  (Label.fHeight (Label.GetDefaultSize 32 hello_label) = 0
   <-> 13 = 2 ^ 32 - 1) /\
  (13 <> 2 ^ 32 - 1 ->
   1 <= Label.fHeight (Label.GetDefaultSize 32 hello_label) < 2 ^ 32).
Proof.
  apply (GetDefaultSize_height_zero_iff string Z Z 32); [lia|].
  unfold Label.UInt_range; cbn. lia.
Defined.

(** [GetDefaultSize_eq_iff] at [hello_label] and [tall_label], with 32
    bits. *)
Lemma GetDefaultSize_eq_iff_witness :
  Label.GetDefaultSize 32 hello_label = Label.GetDefaultSize 32 tall_label
  <-> 30 = 30 /\ 13 = 4294967295.
Proof.
  assert (H1 : Label.UInt_range 32 (Label.fTHeight hello_label))
    by (unfold Label.UInt_range; cbn; lia).
  assert (H2 : Label.UInt_range 32 (Label.fTHeight tall_label))
    by (unfold Label.UInt_range; cbn; lia).
  exact (GetDefaultSize_eq_iff string Z Z 32 hello_label tall_label H1 H2).
Defined.

(** ** Further properties of the morphing function and its configuration *)

Section MorphCalls.

Variables RooArgList RooArgSet RooListProxy RooSetProxy : Type.
Variable RooObjCacheManager : Type.
Variable double : Type.
Variable TDirectory : Type.
Variable int_of_size_t : Z -> Z.
Variable INT_MAX : Z.
Hypothesis int_of_size_t_keeps :
  forall n : Z, 0 <= n <= INT_MAX -> int_of_size_t n = n.

Variable Config_readParameters :
  option TDirectory -> Config.Config RooArgList double ->
  option (Config.Config RooArgList double).

Implicit Types c : Config.Config RooArgList double.
Implicit Types f : MorphFunc.RooLagrangianMorphFunc
  RooArgList RooArgSet RooListProxy RooSetProxy RooObjCacheManager double.

(** A default-constructed configuration is empty: it has no folder names,
    [nSamples] is zero, and no sample name has a parameter card or flag
    values in it. *)
Theorem Config_ctor_no_samples (d : RooArgList) :
  0 <= INT_MAX ->
  Config.nSamples int_of_size_t (Config.Config_ctor d (double := double)) = 0 /\
  Config.getFolderNames (Config.Config_ctor d (double := double)) = [] /\
  (forall sample : string,
     Config.getParamCards (Config.Config_ctor d (double := double)) !! sample = None) /\
  (forall sample : string,
     Config.getFlagValues (Config.Config_ctor d (double := double)) !! sample = None).
Proof.
  intros Hmax. split.
  - unfold Config.nSamples; cbn. apply int_of_size_t_keeps. lia.
  - split; [reflexivity|]. split; intros sample.
    + unfold Config.getParamCards; cbn. apply lookup_empty.
    + unfold Config.getFlagValues; cbn. apply lookup_empty.
Qed.

(** When the number of folder names is one that [int] can represent,
    [nSamples] of a morphing function lies between zero and the largest
    [int], and it is zero exactly when the configuration has no folder
    name. *)
Theorem nSamples_zero_iff_no_folders f :
  Z.of_nat (length (Config.getFolderNames (MorphFunc._config f))) <= INT_MAX ->
  0 <= MorphFunc.nSamples int_of_size_t f <= INT_MAX /\
  (MorphFunc.nSamples int_of_size_t f = 0
   <-> Config.getFolderNames (MorphFunc._config f) = []).
Proof.
  intros Hle. unfold MorphFunc.nSamples.
  rewrite int_of_size_t_keeps by lia.
  split; [lia|]. split.
  - intros Hzero.
    destruct (Config.getFolderNames (MorphFunc._config f)) as [| name names];
      [reflexivity | cbn in Hzero; lia].
  - intros ->. reflexivity.
Qed.

(** [readParameters] of a morphing function returns exactly when
    [Config::readParameters] does, and then it has replaced the
    configuration by the one that call left and has changed no other
    member: in particular the sample map, the scale and the cache manager
    are as before, and [nSamples] is now that of the new configuration. *)
Theorem readParameters_frame (d : option TDirectory) f :
  (is_Some (MorphFunc.readParameters Config_readParameters d f)
   <-> is_Some (Config_readParameters d (MorphFunc._config f))) /\
  (forall f',
     MorphFunc.readParameters Config_readParameters d f = Some f' ->
     Config_readParameters d (MorphFunc._config f) = Some (MorphFunc._config f') /\
     MorphFunc.nSamples int_of_size_t f'
     = Config.nSamples int_of_size_t (MorphFunc._config f') /\
     MorphFunc._ownParameters f' = MorphFunc._ownParameters f /\
     MorphFunc._cacheMgr f' = MorphFunc._cacheMgr f /\
     MorphFunc._scale f' = MorphFunc._scale f /\
     MorphFunc._sampleMap f' = MorphFunc._sampleMap f /\
     MorphFunc._physics f' = MorphFunc._physics f /\
     MorphFunc._operators f' = MorphFunc._operators f /\
     MorphFunc._observables f' = MorphFunc._observables f /\
     MorphFunc._binWidths f' = MorphFunc._binWidths f /\
     MorphFunc._flags f' = MorphFunc._flags f /\
     MorphFunc._diagrams f' = MorphFunc._diagrams f /\
     MorphFunc._curNormSet f' = MorphFunc._curNormSet f /\
     MorphFunc._nonInterfering f' = MorphFunc._nonInterfering f).
Proof.
  unfold MorphFunc.readParameters.
  destruct (Config_readParameters d (MorphFunc._config f)) as [c' |] eqn:Hread.
  - split.
    + split; intros _; eauto.
    + intros f' Hf'. injection Hf' as <-. cbn. repeat split.
  - split.
    + split; intros [x Hx]; discriminate Hx.
    + intros f' Hf'. discriminate Hf'.
Qed.

End MorphCalls.

(** [Config_ctor_no_samples] with a 32-bit [int]. *)
Lemma Config_ctor_no_samples_witness :
  Config.nSamples int32_of_size_t (Config.Config_ctor tt (double := Z)) = 0 /\
  Config.getFolderNames (Config.Config_ctor tt (double := Z)) = [] /\
  (forall sample : string,
     Config.getParamCards (Config.Config_ctor tt (double := Z)) !! sample = None) /\
  (forall sample : string,
     Config.getFlagValues (Config.Config_ctor tt (double := Z)) !! sample = None).
Proof.
  assert (Hmax : 0 <= 2147483647) by lia.
  exact (Config_ctor_no_samples unit Z int32_of_size_t 2147483647
           int32_of_size_t_keeps tt Hmax).
Defined.

(** [nSamples_zero_iff_no_folders] at [two_sample_morph], with a 32-bit
    [int]. *)
Lemma nSamples_zero_iff_no_folders_witness :
  0 <= MorphFunc.nSamples int32_of_size_t two_sample_morph <= 2147483647 /\
  (MorphFunc.nSamples int32_of_size_t two_sample_morph = 0
   <-> Config.getFolderNames (MorphFunc._config two_sample_morph) = []).
Proof.
  assert (Hle : Z.of_nat (length (Config.getFolderNames
                                    (MorphFunc._config two_sample_morph)))
                <= 2147483647) by (cbn; lia).
  exact (nSamples_zero_iff_no_folders unit unit unit unit unit Z
           int32_of_size_t 2147483647 int32_of_size_t_keeps
           two_sample_morph Hle).
Defined.

(** ** The setters that the label header defines *)

Section LabelSetters.

Variables TGString GContext_t FontStruct_t Surroundings : Type.
Variable TGString_of_chars : option string -> TGString.
Variable TGString_of_Int : Z -> TGString.
Variable SetText :
  option TGString ->
  Label.TGLabel TGString GContext_t FontStruct_t * Surroundings ->
  option (Label.TGLabel TGString GContext_t FontStruct_t * Surroundings).

Implicit Types l : Label.TGLabel TGString GContext_t FontStruct_t.
Implicit Types st : Label.TGLabel TGString GContext_t FontStruct_t * Surroundings.

(** Neither [SetText] overload of the header hands a null pointer on. *)
Lemma SetText_overloads_pass_a_string :
  (forall newText st, exists text,
     Label.SetText_chars TGString_of_chars SetText newText st
     = SetText (Some text) st) /\
  (forall number st, exists text,
     Label.SetText_Int TGString_of_Int SetText number st
     = SetText (Some text) st).
Proof.
  split; intros x st; eexists; reflexivity.
Qed.


End LabelSetters.
